(** * viser_proxy_manager: session registry, port allocation and proxying

    A shallow embedding of [src/viser_proxy_manager.py].  The class
    [ViserProxyManager] keeps a dictionary from session hashes to running
    Viser servers and the last port it handed out; [start_server] scans the
    configured port range round-robin, [get_server] and [stop_server] look
    a session up and tear it down, and the two route handlers [proxy] and
    [websocket_proxy] forward HTTP requests and WebSocket connections to the
    server of a session.

    Python exceptions are modelled by an error monad over the program
    state, which consists of the manager object and of the part of the
    machine the manager talks to: the TCP ports of 127.0.0.1 and the
    backend library that serves on them. *)

From Stdlib Require Import ZArith.
From Stdlib.Strings Require Import Byte.
From stdpp Require Import gmap strings list pretty.

Local Open Scope string_scope.
Local Open Scope Z_scope.
Local Open Scope list_scope.

(** ** Exceptions *)

Inductive exn : Type :=
  | OSError
  | OverflowError
  | ZeroDivisionError
  | RuntimeError (msg : string)
  | KeyError (key : string)
  | LibraryError (msg : string).   (* raised by httpx, with its [str] *)

Global Instance exn_eq_dec : EqDecision exn.
Proof. solve_decision. Defined.

(** ** HTTP messages *)

(** The parts of the inbound [fastapi.Request] that [proxy] reads.
    [headers] is [dict(request.headers)]: the header names are the keys, in
    lower case as the server interface delivers them. *)
Record Request : Type := {
  method : string;
  url_query : string;
  headers : gmap string string;
  body : list byte
}.

(** The request built by [client.build_request]. *)
Record HttpxRequest : Type := {
  req_method : string;
  req_url : string;
  req_headers : gmap string string;
  req_content : list byte
}.

(** The response of the backend as [httpx] hands it over:
    [proxied_resp.status_code], [dict(proxied_resp.headers)] and the bytes
    read by [proxied_resp.aread()]. *)
Record HttpxResponse : Type := {
  resp_status_code : Z;
  resp_headers : gmap string string;
  resp_content : list byte
}.

(** The arguments of [fastapi.responses.Response(...)]; [content] is a
    [str] or a [bytes] object, [headers] defaults to [None]. *)
Inductive Content : Type :=
  | Str (s : string)
  | Bytes (b : list byte).

Record Response : Type := {
  content : Content;
  status_code : Z;
  response_headers : option (gmap string string)
}.

(** ** Interactions with the outside

    Every call that leaves the process is recorded, in order. *)
Inductive io_event : Type :=
  | EvBind (port : Z)                       (* s.bind(("127.0.0.1", port)) *)
  | EvHttpSend (req : HttpxRequest)         (* client.send(proxied_req) *)
  | EvWsAccept                              (* websocket.accept() *)
  | EvWsClose (code : Z) (reason : string)  (* websocket.close(code, reason) *)
  | EvWsConnect (url : string)              (* websockets.connect(url) *)
  | EvPrint (line : string).

(** ** The machine: ports of the loopback interface

    [viser.ViserServer] and the operating system are not part of the
    repository.  The operating system is modelled by one rule: a port is
    held by at most one socket, so that a bind succeeds exactly when nothing
    holds the port, be it another process, a running server or a socket this
    process has bound and not yet closed.  A server serves on the port it
    got until it is stopped through its handle.  Which port a server gets
    when it is constructed is up to the library and is left open: it is a
    parameter of the machine. *)

Record ViserServer : Type := {
  server_uid : nat;   (* object identity: the n-th server constructed *)
  get_port : Z
}.

Global Instance ViserServer_eq_dec : EqDecision ViserServer.
Proof. solve_decision. Defined.

(** What the backend library does when a server is constructed for a port:
    given which ports are held at that moment and the port it is asked for,
    it raises, or it settles on a port to serve on. *)
Definition Backend : Type := (Z → bool) → Z → exn + Z.

Record Host : Type := {
  foreign : gset Z;              (* ports bound by other processes *)
  running : list ViserServer;    (* servers constructed and not stopped *)
  launched : nat;                (* number of servers constructed so far *)
  probes : list Z;               (* ports of the sockets this process has
                                    bound and not closed yet *)
  backend : Backend              (* the library behind [viser.ViserServer] *)
}.

(** Modelled from the spec: the ports that another process or a running
    server holds. *)
Definition port_in_use (h : Host) (port : Z) : bool :=
  bool_decide (port ∈ foreign h) || bool_decide (port ∈ get_port <$> running h).

(** Modelled from the spec: the ports that cannot be bound, those in use
    and those of the open sockets of this process. *)
Definition port_held (h : Host) (port : Z) : bool :=
  port_in_use h port || bool_decide (port ∈ probes h).

(** ** The manager object *)

Record ViserProxyManager : Type := {
  _min_port : Z;
  _max_port : Z;
  _server_from_session_hash : gmap string ViserServer;
  _last_port : Z
}.

(** [ViserProxyManager.__init__], without the route registration. *)
Definition __init__ (min_local_port max_local_port : Z) : ViserProxyManager :=
  {| _min_port := min_local_port;
     _max_port := max_local_port;
     _server_from_session_hash := ∅;
     _last_port := min_local_port - 1 |}.

Record State : Type := {
  self : ViserProxyManager;
  host : Host;
  trace : list io_event
}.

Definition add_trace (evs : list io_event) (st : State) : State :=
  {| self := self st; host := host st; trace := trace st ++ evs |}.

Definition set_probes (ports : list Z) (st : State) : State :=
  {| self := self st;
     host := {| foreign := foreign (host st);
                running := running (host st);
                launched := launched (host st);
                probes := ports;
                backend := backend (host st) |};
     trace := trace st |}.

(** ** The monad of state and exceptions

    A computation takes the state and gives the state it leaves behind
    together with either the exception it raised or its value: what was
    written before a [raise] stays written. *)

Definition M (A : Type) : Type := State → State * (exn + A).

Definition ret {A} (a : A) : M A := λ st, (st, inr a).

Definition raise {A} (e : exn) : M A := λ st, (st, inl e).

Definition bind {A B} (c : M A) (k : A → M B) : M B := λ st,
  match c st with
  | (st', inl e) => (st', inl e)
  | (st', inr a) => k a st'
  end.

Notation "x <~ c ;; k" := (bind c (λ x, k))
  (at level 100, c at next level, right associativity).
Notation "c ;;; k" := (bind c (λ _, k))
  (at level 100, right associativity).

Definition gets {A} (f : State → A) : M A := λ st, (st, inr (f st)).

Definition modify (f : State → State) : M unit := λ st, (f st, inr tt).

Definition log (ev : io_event) : M unit := modify (add_trace [ev]).

(** [try: c except E: handler], for the exceptions [E] selected by [handles]. *)
Definition try_except {A} (c : M A) (handles : exn → bool) (handler : M A) : M A :=
  λ st,
  match c st with
  | (st', inl e) => if handles e then handler st' else (st', inl e)
  | r => r
  end.

(** [for x in xs: body] inside a function: the body either returns from the
    function ([Some]) or goes on with the next element ([None]); [orelse] is
    the code after the loop. *)
Fixpoint for_each {A B} (xs : list A) (body : A → M (option B)) (orelse : M B) : M B :=
  match xs with
  | [] => orelse
  | x :: xs' =>
      r <~ body x ;;
      match r with
      | Some b => ret b
      | None => for_each xs' body orelse
      end
  end.

(** Python's [a % b] on integers: the remainder takes the sign of [b], as
    [Z.modulo] does, and a zero divisor raises. *)
Definition py_mod (a b : Z) : M Z :=
  if decide (b = 0) then raise ZeroDivisionError else ret (a `mod` b).

(** Python's [range(n)]. *)
Definition range (n : Z) : list Z := seqZ 0 n.

(** Truth value of a [str]: the empty string is false. *)
Definition truthy (s : string) : bool := negb (bool_decide (s = "")).

(** ** Primitive operations on the machine *)

(** Modelled from the spec: the standard library call
    [s.bind(("127.0.0.1", port))] on a new socket [s].  A port number
    outside of 0..65535 is refused with [OverflowError], a port that is
    held with [OSError]; otherwise the socket holds the port from now on. *)
Definition socket_bind (port : Z) : M unit :=
  log (EvBind port) ;;;
  h <~ gets host ;;
  if bool_decide (0 ≤ port ≤ 65535)
  then if port_held h port then raise OSError
       else modify (set_probes (port :: probes h))
  else raise OverflowError.

(** [with socket.socket(...) as s: body].  The socket is closed when the
    block is left, by its end, by a [return] or by an exception: what it
    held is free again, and it held it all through [body]. *)
Definition with_socket {A} (body : M A) : M A := λ st,
  match body st with
  | (st', r) => (set_probes (probes (host st)) st', r)
  end.

(** Modelled from the spec: [viser.ViserServer(port=port)], the launch of
    a backend.  The library decides, from the ports held at that moment,
    whether it raises or on which port it serves; the operating system lets
    it have that port only if nothing holds it, and a backend that cannot
    bind raises [OSError].  A launch that succeeds gives a new handle. *)
Definition ViserServer_new (port : Z) : M ViserServer := λ st,
  let h := host st in
  match backend h (port_held h) port with
  | inl e => (st, inl e)
  | inr actual =>
      if port_held h actual then (st, inl OSError)
      else
        let server := {| server_uid := launched h; get_port := actual |} in
        ({| self := self st;
            host := {| foreign := foreign h;
                       running := running h ++ [server];
                       launched := S (launched h);
                       probes := probes h;
                       backend := backend h |};
            trace := trace st |},
         inr server)
  end.

(** Modelled from the spec: [server.stop()], after which the backend no
    longer holds its port. *)
Definition ViserServer_stop (server : ViserServer) : M unit := λ st,
  let h := host st in
  ({| self := self st;
      host := {| foreign := foreign h;
                 running := filter (λ s, s ≠ server) (running h);
                 launched := launched h;
                 probes := probes h;
                 backend := backend h |};
      trace := trace st |},
   inr tt).

(** Assignments to the attributes of [self]. *)
Definition set_session (server_id : string) (server : ViserServer) : M unit :=
  modify (λ st,
    let m := self st in
    {| self := {| _min_port := _min_port m;
                  _max_port := _max_port m;
                  _server_from_session_hash :=
                    <[server_id := server]> (_server_from_session_hash m);
                  _last_port := _last_port m |};
       host := host st;
       trace := trace st |}).

Definition set_last_port (port : Z) : M unit :=
  modify (λ st,
    let m := self st in
    {| self := {| _min_port := _min_port m;
                  _max_port := _max_port m;
                  _server_from_session_hash := _server_from_session_hash m;
                  _last_port := port |};
       host := host st;
       trace := trace st |}).

Definition is_OSError (e : exn) : bool := bool_decide (e = OSError).

(** ** [start_server] *)

Definition no_ports_message (min_port max_port : Z) : string :=
  "No available local ports in range " +:+ pretty min_port +:+ "-" +:+ pretty max_port.

Definition start_server (server_id : string) : M ViserServer :=
  min_port <~ gets (λ st, _min_port (self st)) ;;
  max_port <~ gets (λ st, _max_port (self st)) ;;
  last_port <~ gets (λ st, _last_port (self st)) ;;
  let port_range_size := max_port - min_port + 1 in
  r <~ py_mod (last_port + 1 - min_port) port_range_size ;;
  let start_port := r + min_port in
  for_each (range port_range_size)
    (λ offset,
       r <~ py_mod (start_port - min_port + offset) port_range_size ;;
       let port := r + min_port in
       try_except
         (with_socket
            (socket_bind port ;;;
             server <~ ViserServer_new port ;;
             set_session server_id server ;;;
             set_last_port port ;;;
             ret (Some server)))
         is_OSError
         (ret None))
    (raise (RuntimeError (no_ports_message min_port max_port))).

(** Names for parts of [start_server], used to state facts about it. *)

(** The [try] block of the loop, for one port. *)
Local Abbreviation try_port server_id port :=
  (try_except
     (with_socket
        (socket_bind port ;;;
         server <~ ViserServer_new port ;;
         set_session server_id server ;;;
         set_last_port port ;;;
         ret (Some server)))
     is_OSError
     (ret None)).

(** The body of the loop. *)
Local Abbreviation scan_body server_id min_port port_range_size start_port :=
  (λ offset : Z,
     r <~ py_mod (start_port - min_port + offset) port_range_size ;;
     try_port server_id (r + min_port)).

(** The machine while a socket of this process holds [port]. *)
Local Abbreviation probing port h :=
  {| foreign := foreign h;
     running := running h;
     launched := launched h;
     probes := port :: probes h;
     backend := backend h |}.

(** The state [start_server] leaves when it probed [port] and the backend
    settled on the port [actual]. *)
Local Abbreviation started server_id port actual st :=
  {| self := {| _min_port := _min_port (self st);
                _max_port := _max_port (self st);
                _server_from_session_hash :=
                  <[server_id := {| server_uid := launched (host st); get_port := actual |}]>
                    (_server_from_session_hash (self st));
                _last_port := port |};
     host := {| foreign := foreign (host st);
                running := running (host st) ++
                  [{| server_uid := launched (host st); get_port := actual |}];
                launched := S (launched (host st));
                probes := probes (host st);
                backend := backend (host st) |};
     trace := trace st ++ [EvBind port] |}.

(** ** [get_server] and [stop_server] *)

Definition get_server (server_id : string) : M ViserServer :=
  sessions <~ gets (λ st, _server_from_session_hash (self st)) ;;
  match sessions !! server_id with
  | Some server => ret server
  | None => raise (KeyError server_id)
  end.

(** [self._server_from_session_hash.pop(server_id)]. *)
Definition pop_session (server_id : string) : M ViserServer := λ st,
  let m := self st in
  match _server_from_session_hash m !! server_id with
  | Some server =>
      ({| self := {| _min_port := _min_port m;
                     _max_port := _max_port m;
                     _server_from_session_hash :=
                       delete server_id (_server_from_session_hash m);
                     _last_port := _last_port m |};
          host := host st;
          trace := trace st |},
       inr server)
  | None => (st, inl (KeyError server_id))
  end.

Definition stop_server (server_id : string) : M unit :=
  server <~ pop_session server_id ;;
  ViserServer_stop server.

(** ** The route handlers

    The backend answers through the network; what it answers is given by
    two functions.  [httpx_send req] is the response to [req], or the [str]
    of the exception [client.send] raises.  [ws_session url] stands for the
    whole [async with websockets.connect(url)] block, the connection and the
    two forwarding tasks in it: [None] when the block is left normally,
    [Some msg] when an exception [e] with [str(e) = msg] leaves it. *)

Section Handlers.
Variable httpx_send : HttpxRequest → string + HttpxResponse.
Variable ws_session : string → option string.

Definition client_send (req : HttpxRequest) : M HttpxResponse :=
  log (EvHttpSend req) ;;;
  match httpx_send req with
  | inl msg => raise (LibraryError msg)
  | inr resp => ret resp
  end.

Definition proxy (request : Request) (server_id proxy_path : string) : M Response :=
  sessions <~ gets (λ st, _server_from_session_hash (self st)) ;;
  match sessions !! server_id with
  | None =>
      ret {| content := Str "Server not found"; status_code := 404;
             response_headers := None |}
  | Some server =>
      let path_suffix :=
        if truthy proxy_path then "/" +:+ proxy_path else "/" in
      let target_url :=
        "http://127.0.0.1:" +:+ pretty (get_port server) +:+ path_suffix in
      let target_url :=
        if truthy (url_query request)
        then target_url +:+ "?" +:+ url_query request
        else target_url in
      let headers0 := headers request in
      let headers1 := delete "host" headers0 in
      let headers2 := <["accept-encoding" := "identity"]> headers1 in
      let proxied_req :=
        {| req_method := method request;
           req_url := target_url;
           req_headers := headers2;
           req_content := body request |} in
      proxied_resp <~ client_send proxied_req ;;
      let response_headers := resp_headers proxied_resp in
      let content := resp_content proxied_resp in
      ret {| content := Bytes content;
             status_code := resp_status_code proxied_resp;
             response_headers := Some response_headers |}
  end.

Definition websocket_proxy (server_id : string) : M unit :=
  log EvWsAccept ;;;
  sessions <~ gets (λ st, _server_from_session_hash (self st)) ;;
  match sessions !! server_id with
  | None => log (EvWsClose 1008 "Not Found")
  | Some server =>
      let target_ws_url := "ws://127.0.0.1:" +:+ pretty (get_port server) in
      if negb (truthy target_ws_url)
      then log (EvWsClose 1008 "Not Found")
      else
        log (EvWsConnect target_ws_url) ;;;
        match ws_session target_ws_url with
        | None => ret tt
        | Some msg =>
            log (EvPrint ("WebSocket proxy error: " +:+ msg)) ;;;
            log (EvWsClose 1011 msg)
        end
  end.
End Handlers.

(** ** Sequences of calls

    The manager is driven by the session triggers of the application
    ([app.py]); between two calls other processes may take and give back
    ports.  An exception ends the call that raised it and leaves the
    manager as it then is. *)

Inductive call : Type :=
  | StartSession (server_id : string)
  | GetSession (server_id : string)
  | StopSession (server_id : string)
  | Elsewhere (ports : gset Z).

Global Instance call_eq_dec : EqDecision call.
Proof. solve_decision. Defined.

Definition set_foreign (ports : gset Z) : M unit :=
  modify (λ st,
    {| self := self st;
       host := {| foreign := ports;
                  running := running (host st);
                  launched := launched (host st);
                  probes := probes (host st);
                  backend := backend (host st) |};
       trace := trace st |}).

Definition perform (c : call) (st : State) : State :=
  match c with
  | StartSession server_id => (start_server server_id st).1
  | GetSession server_id => (get_server server_id st).1
  | StopSession server_id => (stop_server server_id st).1
  | Elsewhere ports => (set_foreign ports st).1
  end.

Definition run (calls : list call) (st : State) : State :=
  foldl (λ st c, perform c st) st calls.

(** The state right after [ViserProxyManager(app, min, max)], on a machine
    with the backend library [library] where other processes hold [ports]. *)
Definition boot (library : Backend) (min_local_port max_local_port : Z)
    (ports : gset Z) : State :=
  {| self := __init__ min_local_port max_local_port;
     host := {| foreign := ports; running := []; launched := 0;
                probes := []; backend := library |};
     trace := [] |}.

(** Two backend libraries for worked examples.  The first serves on the
    port it is given and on no other.  The second, when the port it is
    given is held, moves on to the following ports until it finds one that
    can be bound, and gives up after sixteen ports. *)
Definition strict_backend : Backend := λ _ port, inr port.

Fixpoint next_free_port (held : Z → bool) (port : Z) (tries : nat) : exn + Z :=
  match tries with
  | O => inl OSError
  | S tries' =>
      if held port then next_free_port held (port + 1) tries' else inr port
  end.

Definition moving_backend : Backend := λ held port, next_free_port held port 16.

Definition sessions (st : State) : gmap string ViserServer :=
  _server_from_session_hash (self st).


(** Well-formed configuration: a non-empty range of TCP port numbers. *)
Definition valid_config (m : ViserProxyManager) : Prop :=
  1 ≤ _min_port m ∧ _min_port m ≤ _max_port m ∧ _max_port m ≤ 65535.

(** The port after [p] in the range, going round. *)
Definition next_port (m : ViserProxyManager) (p : Z) : Z :=
  if decide (p = _max_port m) then _min_port m else p + 1.

(** The number of ports of the range, [port_range_size] in [start_server],
    and the offset of [start_port] in the range. *)
Definition port_range_size (m : ViserProxyManager) : Z :=
  _max_port m - _min_port m + 1.

Definition start_offset (m : ViserProxyManager) : Z :=
  (_last_port m + 1 - _min_port m) `mod` port_range_size m.

(** The ports in the order in which the loop of [start_server] computes
    them from its offsets. *)
Definition scan_order (m : ViserProxyManager) : list Z :=
  let port_range_size := _max_port m - _min_port m + 1 in
  let start_port :=
    (_last_port m + 1 - _min_port m) `mod` port_range_size + _min_port m in
  (λ offset, (start_port - _min_port m + offset) `mod` port_range_size + _min_port m)
    <$> range port_range_size.

(** [server_id] was never started in [calls], or it was stopped and not
    started again. *)
Definition never_started_or_stopped (server_id : string) (calls : list call) : Prop :=
  StartSession server_id ∉ calls ∨
  ∃ before after : list call,
    calls = before ++ StopSession server_id :: after ∧
    StartSession server_id ∉ after.

(** The sessions and the running servers fit together: every session is
    served by a running server, no two running servers hold the same port,
    and no server is registered under two identifiers. *)
Record consistent (st : State) : Prop := {
  sessions_running :
    ∀ server_id server,
      sessions st !! server_id = Some server → server ∈ running (host st);
  ports_distinct : NoDup (get_port <$> running (host st));
  sessions_inj :
    ∀ id1 id2 server,
      sessions st !! id1 = Some server → sessions st !! id2 = Some server → id1 = id2
}.

(** Every [StartSession] of the sequence is for an identifier that has no
    session at that moment. *)
Fixpoint fresh_starts (calls : list call) (st : State) : bool :=
  match calls with
  | [] => true
  | c :: calls' =>
      match c with
      | StartSession server_id => bool_decide (sessions st !! server_id = None)
      | _ => true
      end
      && fresh_starts calls' (perform c st)
  end.

(** ** The application ([app.py])

    The event handlers that [main] registers on the page: [start_server] on
    load and [stop] on unload.  Both read the session hash of the request;
    [start_server] also reads its [host] header and returns the HTML of the
    frame.  ([add_random_sphere] draws random floating-point numbers and is
    left out.) *)

Inductive app_exn : Type :=
  | AssertionError
  | Raised (e : exn).

Record GradioRequest : Type := {
  session_hash : option string;
  request_headers : gmap string string
}.

Definition double_quote : string := String (Ascii.ascii_of_nat 34) EmptyString.
Definition line_feed : string := String (Ascii.ascii_of_nat 10) EmptyString.

Module App.

(** [viser_manager = ViserProxyManager(app)], with the default range. *)
Definition viser_manager (library : Backend) (ports : gset Z) : State :=
  boot library 8000 9000 ports.

(** The f-string that [start_server] returns. *)
Definition iframe_html (host hash : string) : string :=
  line_feed +:+
  "            <div style=" +:+ double_quote +:+
  "border: 2px solid #ccc; padding: 10px;" +:+ double_quote +:+ ">" +:+ line_feed +:+
  "                <iframe src=" +:+ double_quote +:+
  "http://" +:+ host +:+ "/viser/" +:+ hash +:+ "/" +:+ double_quote +:+
  " width=" +:+ double_quote +:+ "100%" +:+ double_quote +:+
  " height=" +:+ double_quote +:+ "500px" +:+ double_quote +:+
  " frameborder=" +:+ double_quote +:+ "0" +:+ double_quote +:+
  "></iframe>" +:+ line_feed +:+
  "            </div>" +:+ line_feed +:+
  "            ".

Definition stop (request : GradioRequest) (st : State) : State * (app_exn + unit) :=
  match session_hash request with
  | None => (st, inl AssertionError)
  | Some hash =>
      match stop_server hash st with
      | (st', inl e) => (st', inl (Raised e))
      | (st', inr r) => (st', inr r)
      end
  end.

Definition start_server (request : GradioRequest) (st : State)
    : State * (app_exn + string) :=
  match session_hash request with
  | None => (st, inl AssertionError)
  | Some hash =>
      match start_server hash st with
      | (st', inl e) => (st', inl (Raised e))
      | (st', inr _) =>
          match request_headers request !! "host" with
          | None => (st', inl (Raised (KeyError "host")))
          | Some host => (st', inr (iframe_html host hash))
          end
      end
  end.

End App.

(** * Properties *)

(** ** Lookup and teardown *)

Lemma get_server_state (server_id : string) (st : State) :
  (get_server server_id st).1 = st.
Proof.
  unfold get_server, bind, gets. simpl.
  destruct (_ !! server_id); reflexivity.
Qed.

Lemma get_server_absent (server_id : string) (st : State) :
  sessions st !! server_id = None →
  get_server server_id st = (st, inl (KeyError server_id)).
Proof.
  unfold sessions, get_server, bind, gets. simpl. intros ->. reflexivity.
Qed.

Lemma stop_server_absent (server_id : string) (st : State) :
  sessions st !! server_id = None →
  stop_server server_id st = (st, inl (KeyError server_id)).
Proof.
  unfold sessions, stop_server, bind, pop_session. intros ->. reflexivity.
Qed.

Lemma stop_server_sessions (server_id : string) (st : State) :
  sessions (stop_server server_id st).1 = delete server_id (sessions st).
Proof.
  unfold sessions, stop_server, bind, pop_session.
  destruct (_ !! server_id) as [server|] eqn:E; simpl; [reflexivity|].
  symmetry. by apply delete_id.
Qed.

(** ** The port scan of [start_server] *)

Lemma add_trace_nil (st : State) : add_trace [] st = st.
Proof. destruct st. unfold add_trace. simpl. by rewrite app_nil_r. Qed.

Lemma add_trace_app (evs1 evs2 : list io_event) (st : State) :
  add_trace evs2 (add_trace evs1 st) = add_trace (evs1 ++ evs2) st.
Proof. unfold add_trace. simpl. by rewrite app_assoc. Qed.

(** Leaving the [with] block gives the machine back as it was found. *)
Lemma set_probes_add_trace (evs : list io_event) (ports : list Z) (st : State) :
  set_probes (probes (host st)) (add_trace evs (set_probes ports st)) =
  add_trace evs st.
Proof. destruct st as [m [] t]. reflexivity. Qed.

Lemma port_held_probing (h : Host) (port actual : Z) :
  port_held (probing port h) actual = false →
  actual ≠ port ∧ port_in_use h actual = false ∧ port_held h actual = false.
Proof.
  unfold port_held, port_in_use. simpl.
  intros [Huse Hprobe%bool_decide_eq_false]%orb_false_iff.
  apply not_elem_of_cons in Hprobe as [Hne Hprobe].
  split_and!; [done..|]. rewrite Huse. simpl. by apply bool_decide_eq_false.
Qed.

(** The three ways the [try] block ends for one port: the scan goes on (the
    port is held, or the launch raised [OSError]), an exception leaves the
    loop, or a server is launched and returned.  In each case the port was
    probed once, and the socket of the probe is closed again. *)
Lemma try_port_outcome (server_id : string) (port : Z) (st : State) :
  try_port server_id port st = (add_trace [EvBind port] st, inr None) ∨
  (∃ e, try_port server_id port st = (add_trace [EvBind port] st, inl e)) ∨
  (∃ actual,
     port_held (host st) port = false ∧
     port_held (probing port (host st)) actual = false ∧
     try_port server_id port st =
       (started server_id port actual st,
        inr (Some {| server_uid := launched (host st); get_port := actual |}))).
Proof.
  destruct st as [m [f r l p b] t].
  unfold try_except, with_socket, socket_bind, bind, log, modify, gets, raise, ret.
  unfold ViserServer_new, set_session, set_last_port, modify, add_trace, set_probes.
  simpl. case_bool_decide as Hvalid; simpl; [|right; left; by eexists].
  destruct (port_held _ port) eqn:Hheld; simpl; [by left|].
  destruct (b _ port) as [e|actual] eqn:Hlaunch; simpl.
  - destruct (is_OSError e); simpl; [by left|right; left; by eexists].
  - destruct (port_held _ actual) eqn:Hactual; simpl; [by left|].
    right; right. by exists actual.
Qed.

Lemma try_port_held (server_id : string) (port : Z) (st : State) :
  0 ≤ port ≤ 65535 →
  port_held (host st) port = true →
  try_port server_id port st = (add_trace [EvBind port] st, inr None).
Proof.
  intros Hvalid Hheld.
  destruct (try_port_outcome server_id port st)
    as [Hskip|[[e He]|(actual & Hfree & _)]]; [done| |congruence].
  revert He. destruct st as [m [f r l p b] t].
  unfold try_except, with_socket, socket_bind, bind, log, modify, gets, raise, ret.
  simpl in *. rewrite bool_decide_true by done. rewrite Hheld. done.
Qed.

(** The loop over a list of offsets, whatever the backend does: it probes
    the ports of the offsets in order, each once, and stops either with an
    exception or at a port that it could bind and for which a server was
    launched while the socket of the probe still held it. *)
Lemma scan_loop_outcome (server_id : string) (min_port size start_port : Z)
    (e0 : exn) (offsets : list Z) (st st' : State) (r : exn + ViserServer) :
  size ≠ 0 →
  for_each offsets (scan_body server_id min_port size start_port) (raise e0) st =
    (st', r) →
  let ports :=
    (λ offset, (start_port - min_port + offset) `mod` size + min_port) <$> offsets in
  ∃ n : nat,
    (∃ e, st' = add_trace (EvBind <$> take n ports) st ∧ r = inl e) ∨
    (∃ port actual,
       ports !! n = Some port ∧
       port_held (host st) port = false ∧
       port_held (probing port (host st)) actual = false ∧
       st' = started server_id port actual (add_trace (EvBind <$> take n ports) st) ∧
       r = inr {| server_uid := launched (host st); get_port := actual |}).
Proof.
  intros Hsize. revert st.
  induction offsets as [|offset offsets IH]; intros st Hrun ports.
  - exists 0%nat. left. exists e0. injection Hrun as <- <-.
    by rewrite add_trace_nil.
  - cbn [for_each] in Hrun.
    unfold bind at 1 in Hrun. unfold py_mod at 1 in Hrun.
    rewrite decide_False in Hrun by done.
    unfold bind at 1 in Hrun. unfold ret at 1 in Hrun.
    subst ports. cbn [fmap list_fmap].
    set (port := (start_port - min_port + offset) `mod` size + min_port) in *.
    set (ports := (λ offset, (start_port - min_port + offset) `mod` size + min_port)
                    <$> offsets) in *.
    destruct (try_port_outcome server_id port st)
      as [Hskip|[[e He]|(actual & Hfree & Hactual & Hok)]].
    + rewrite Hskip in Hrun.
      apply IH in Hrun as [n [(e & -> & ->)|(q & actual & Hq & Hfree & Hactual & -> & ->)]];
        exists (S n); [left|right].
      * exists e. by rewrite add_trace_app.
      * exists q, actual. rewrite add_trace_app. by split_and!.
    + rewrite He in Hrun. injection Hrun as <- <-.
      exists 1%nat. left. by exists e.
    + rewrite Hok in Hrun. unfold ret in Hrun. injection Hrun as <- <-.
      exists 0%nat. right. exists port, actual. simpl.
      rewrite app_nil_r. by split_and!.
Qed.

(** What a call of [start_server] comes to: it probes a first part of
    [scan_order], and either raises, leaving only these probes behind, or
    returns a server launched for the last port probed, a port of the range
    that could be bound; the server is on a port that nothing held, which
    is not the port probed, for the probe still held that one. *)
Lemma start_server_probes (server_id : string) (st st' : State)
    (r : exn + ViserServer) :
  start_server server_id st = (st', r) →
  ∃ n : nat,
    (∃ e, st' = add_trace (EvBind <$> take n (scan_order (self st))) st ∧ r = inl e) ∨
    (∃ port actual,
       scan_order (self st) !! n = Some port ∧
       _min_port (self st) ≤ port ≤ _max_port (self st) ∧
       port_held (host st) port = false ∧
       port_in_use (host st) actual = false ∧
       actual ≠ port ∧
       st' = started server_id port actual
               (add_trace (EvBind <$> take n (scan_order (self st))) st) ∧
       r = inr {| server_uid := launched (host st); get_port := actual |}).
Proof.
  unfold start_server.
  unfold bind at 1. unfold gets at 1.
  unfold bind at 1. unfold gets at 1.
  unfold bind at 1. unfold gets at 1.
  unfold bind at 1. unfold py_mod at 1.
  case_decide as Hsize.
  - unfold raise. intros [= <- <-]. exists 0%nat. left. exists ZeroDivisionError.
    by rewrite add_trace_nil.
  - unfold ret at 1. intros Hrun.
    apply scan_loop_outcome in Hrun; [|done].
    destruct Hrun
      as [n [(e & -> & ->)|(port & actual & Hport & Hfree & Hactual & -> & ->)]];
      exists n; [left; by eexists|right].
    apply port_held_probing in Hactual as (Hne & Huse & _).
    assert (_min_port (self st) ≤ port ≤ _max_port (self st)) as Hrange.
    { apply list_lookup_fmap_Some in Hport as (offset & -> & Hoffset).
      apply list_elem_of_lookup_2 in Hoffset. unfold range in Hoffset.
      apply elem_of_seqZ in Hoffset.
      pose proof (Z.mod_pos_bound
        ((_last_port (self st) + 1 - _min_port (self st))
           `mod` (_max_port (self st) - _min_port (self st) + 1)
         + _min_port (self st) - _min_port (self st) + offset)
        (_max_port (self st) - _min_port (self st) + 1)) as Hmod.
      lia. }
    exists port, actual. split_and!; [exact Hport|lia|lia|done..].
Qed.

Lemma start_server_outcome (server_id : string) (st st' : State)
    (r : exn + ViserServer) :
  start_server server_id st = (st', r) →
  (∃ evs e, st' = add_trace evs st ∧ r = inl e) ∨
  (∃ evs port actual,
     _min_port (self st) ≤ port ≤ _max_port (self st) ∧
     port_in_use (host st) actual = false ∧
     actual ≠ port ∧
     st' = started server_id port actual (add_trace evs st) ∧
     r = inr {| server_uid := launched (host st); get_port := actual |}).
Proof.
  intros [n [(e & -> & ->)|(port & actual & _ & Hrange & _ & Huse & Hne & -> & ->)]]
    %start_server_probes.
  - left. by eexists _, _.
  - right. by eexists _, port, actual.
Qed.

(** ** The order of the scan *)

Lemma mod_wrap (x n : Z) :
  0 ≤ x < 2 * n → x `mod` n = if decide (x < n) then x else x - n.
Proof.
  intros Hx. case_decide.
  - apply Z.mod_small. lia.
  - replace x with (x - n + 1 * n) at 1 by lia.
    rewrite Z_mod_plus_full. apply Z.mod_small. lia.
Qed.

Section ScanOrder.
Variable m : ViserProxyManager.
Hypothesis Hvalid : valid_config m.

Lemma start_offset_bounds : 0 ≤ start_offset m < port_range_size m.
Proof.
  destruct Hvalid as (? & ? & ?). apply Z.mod_pos_bound.
  unfold port_range_size. lia.
Qed.

Lemma scan_order_lookup (i : nat) :
  Z.of_nat i < port_range_size m →
  scan_order m !! i =
    Some (if decide (start_offset m + Z.of_nat i < port_range_size m)
          then _min_port m + start_offset m + Z.of_nat i
          else _min_port m + start_offset m + Z.of_nat i - port_range_size m).
Proof.
  intros Hi. pose proof start_offset_bounds as Hf.
  unfold scan_order, range. fold (port_range_size m). fold (start_offset m).
  rewrite list_lookup_fmap, lookup_seqZ_lt by done. simpl. f_equal.
  replace (start_offset m + _min_port m - _min_port m + (0 + Z.of_nat i))
    with (start_offset m + Z.of_nat i) by lia.
  rewrite mod_wrap by lia. repeat case_decide; lia.
Qed.

Lemma scan_order_length : length (scan_order m) = Z.to_nat (port_range_size m).
Proof.
  unfold scan_order, range. fold (port_range_size m).
  by rewrite length_fmap, length_seqZ.
Qed.

Lemma scan_order_elem (p : Z) :
  p ∈ scan_order m ↔ _min_port m ≤ p ≤ _max_port m.
Proof.
  pose proof start_offset_bounds as Hf. rewrite list_elem_of_lookup. split.
  - intros [i Hi]. pose proof (lookup_lt_Some _ _ _ Hi) as Hlen.
    rewrite scan_order_length in Hlen.
    rewrite scan_order_lookup in Hi by lia.
    injection Hi as <-. unfold port_range_size in *. case_decide; lia.
  - intros Hp.
    destruct (decide (_min_port m + start_offset m ≤ p)).
    + exists (Z.to_nat (p - _min_port m - start_offset m)).
      rewrite scan_order_lookup by (unfold port_range_size; lia).
      f_equal. unfold port_range_size in *. case_decide; lia.
    + exists (Z.to_nat (p - _min_port m - start_offset m + port_range_size m)).
      rewrite scan_order_lookup by (unfold port_range_size; lia).
      f_equal. unfold port_range_size in *. case_decide; lia.
Qed.

Lemma scan_order_NoDup : NoDup (scan_order m).
Proof.
  pose proof start_offset_bounds as Hf. apply NoDup_alt. intros i j p Hi Hj.
  pose proof (lookup_lt_Some _ _ _ Hi) as Hleni.
  pose proof (lookup_lt_Some _ _ _ Hj) as Hlenj.
  rewrite scan_order_length in Hleni, Hlenj.
  rewrite scan_order_lookup in Hi, Hj by lia.
  injection Hi as Hi. injection Hj as Hj.
  repeat case_decide; lia.
Qed.

Lemma scan_order_range : scan_order m ≡ₚ seqZ (_min_port m) (port_range_size m).
Proof.
  apply NoDup_Permutation.
  - apply scan_order_NoDup.
  - apply NoDup_seqZ.
  - intros p. rewrite scan_order_elem, elem_of_seqZ. unfold port_range_size. lia.
Qed.

Lemma scan_order_head :
  scan_order m !! 0%nat =
    Some ((_last_port m + 1 - _min_port m) `mod` port_range_size m + _min_port m).
Proof.
  pose proof start_offset_bounds as Hf.
  rewrite scan_order_lookup by lia. fold (start_offset m). f_equal. case_decide; lia.
Qed.

Lemma scan_order_head_next :
  _min_port m - 1 ≤ _last_port m ≤ _max_port m →
  scan_order m !! 0%nat = Some (next_port m (_last_port m)).
Proof.
  intros Hlast. rewrite scan_order_head. f_equal. unfold next_port.
  replace (_last_port m + 1 - _min_port m)
    with (_last_port m - _max_port m + port_range_size m)
    by (unfold port_range_size; lia).
  destruct Hvalid as (? & ? & ?).
  rewrite mod_wrap by (unfold port_range_size; lia). unfold port_range_size.
  repeat case_decide; lia.
Qed.

Lemma scan_order_next (i : nat) (p q : Z) :
  scan_order m !! i = Some p →
  scan_order m !! S i = Some q →
  q = next_port m p.
Proof.
  pose proof start_offset_bounds as Hf. intros Hp Hq.
  pose proof (lookup_lt_Some _ _ _ Hq) as Hlen.
  rewrite scan_order_length in Hlen.
  rewrite scan_order_lookup in Hp, Hq by lia.
  injection Hp as <-. injection Hq as <-.
  unfold next_port, port_range_size in *. repeat case_decide; lia.
Qed.

Lemma scan_order_ports :
  Forall (λ p, 0 ≤ p ≤ 65535) (scan_order m).
Proof.
  apply Forall_forall. intros p Hp%scan_order_elem.
  destruct Hvalid as (? & ? & ?). lia.
Qed.
End ScanOrder.

(** ** [start_server] when every port is held *)

Lemma scan_loop_all_held (server_id : string) (min_port size start_port : Z)
    (orelse : M ViserServer) (offsets : list Z) (st : State) :
  size ≠ 0 →
  Forall (λ offset,
            0 ≤ (start_port - min_port + offset) `mod` size + min_port ≤ 65535 ∧
            port_held (host st)
              ((start_port - min_port + offset) `mod` size + min_port) = true)
    offsets →
  for_each offsets (scan_body server_id min_port size start_port) orelse st =
    orelse (add_trace
              (EvBind <$> ((λ offset, (start_port - min_port + offset) `mod` size
                                      + min_port) <$> offsets)) st).
Proof.
  intros Hsize Hheld. revert st Hheld.
  induction offsets as [|offset offsets IH]; intros st Hheld.
  - simpl. by rewrite add_trace_nil.
  - apply Forall_cons in Hheld as [[Hvalid Hport] Hheld].
    cbn [for_each fmap list_fmap].
    unfold bind at 1. unfold py_mod at 1. rewrite decide_False by done.
    unfold bind at 1. unfold ret at 1.
    rewrite try_port_held by done.
    rewrite IH by done. by rewrite add_trace_app.
Qed.

Lemma start_server_exhausted (server_id : string) (st : State) :
  valid_config (self st) →
  (∀ p, _min_port (self st) ≤ p ≤ _max_port (self st) →
        port_in_use (host st) p = true) →
  start_server server_id st =
    (add_trace (EvBind <$> scan_order (self st)) st,
     inl (RuntimeError (no_ports_message (_min_port (self st)) (_max_port (self st))))).
Proof.
  intros Hvalid Hbusy.
  assert (_max_port (self st) - _min_port (self st) + 1 ≠ 0) as Hsize
    by (destruct Hvalid as (? & ? & ?); lia).
  unfold start_server.
  unfold bind at 1. unfold gets at 1.
  unfold bind at 1. unfold gets at 1.
  unfold bind at 1. unfold gets at 1.
  unfold bind at 1. unfold py_mod at 1. rewrite decide_False by done. unfold ret at 1.
  rewrite scan_loop_all_held; [reflexivity|done|].
  apply Forall_forall. intros offset Hoffset.
  set (port_of := λ offset : Z,
         ((_last_port (self st) + 1 - _min_port (self st))
            `mod` (_max_port (self st) - _min_port (self st) + 1)
          + _min_port (self st) - _min_port (self st) + offset)
           `mod` (_max_port (self st) - _min_port (self st) + 1)
         + _min_port (self st)).
  assert (port_of offset ∈ scan_order (self st)) as Hin
    by apply (list_elem_of_fmap_2 port_of _ offset Hoffset).
  apply scan_order_elem in Hin; [|done].
  change (0 ≤ port_of offset ≤ 65535 ∧ port_held (host st) (port_of offset) = true).
  split; [destruct Hvalid as (? & ? & ?); lia|].
  unfold port_held. by rewrite Hbusy.
Qed.


(** ** Sessions and ports along a sequence of calls *)

Lemma port_in_use_running (h : Host) (server : ViserServer) :
  server ∈ running h → port_in_use h (get_port server) = true.
Proof.
  intros Hin. unfold port_in_use. apply orb_true_iff. right.
  apply bool_decide_eq_true. by apply list_elem_of_fmap_2.
Qed.

Lemma consistent_boot (library : Backend) (min_local_port max_local_port : Z)
    (ports : gset Z) :
  consistent (boot library min_local_port max_local_port ports).
Proof.
  split; unfold sessions; simpl.
  - intros server_id server. by rewrite lookup_empty.
  - constructor.
  - intros id1 id2 server. by rewrite lookup_empty.
Qed.

Lemma consistent_start (server_id : string) (st : State) :
  consistent st → consistent (start_server server_id st).1.
Proof.
  intros [Hrun Hports Hinj].
  destruct (start_server server_id st) as [st' r] eqn:Hstart.
  apply start_server_outcome in Hstart
    as [(evs & e & -> & _)|(evs & port & actual & _ & Hfree & _ & -> & _)]; simpl.
  - by split.
  - unfold sessions in *. simpl in *.
    set (server := {| server_uid := launched (host st); get_port := actual |}).
    assert (∀ id, _server_from_session_hash (self st) !! id ≠ Some server) as Hfresh.
    { intros id Hid. apply Hrun, port_in_use_running in Hid.
      simpl in Hid. congruence. }
    split; unfold sessions; simpl.
    + intros id s. rewrite lookup_insert. case_decide.
      * intros [= <-]. apply elem_of_app. right. by apply list_elem_of_singleton.
      * intros Hs. apply elem_of_app. left. by eapply Hrun.
    + rewrite fmap_app. apply NoDup_app. split_and!; [done| |].
      * simpl. intros p Hp ->%list_elem_of_singleton.
        unfold port_in_use in Hfree. apply orb_false_iff in Hfree as [_ Hfree].
        by apply bool_decide_eq_false in Hfree.
      * simpl. apply NoDup_singleton.
    + intros id1 id2 s. rewrite !lookup_insert. repeat case_decide; subst.
      * done.
      * intros [= <-] Hs. by apply Hfresh in Hs.
      * intros Hs [= <-]. by apply Hfresh in Hs.
      * apply Hinj.
Qed.

Lemma consistent_stop (server_id : string) (st : State) :
  consistent st → consistent (stop_server server_id st).1.
Proof.
  intros [Hrun Hports Hinj].
  unfold stop_server, bind, pop_session, sessions in *.
  destruct (_ !! server_id) as [server|] eqn:Hserver; simpl; [|by split].
  split; unfold sessions; simpl.
  - intros id s [Hne Hs]%lookup_delete_Some.
    apply list_elem_of_filter. split; [|by eapply Hrun].
    intros ->. by apply Hne, (Hinj _ _ server).
  - eapply sublist_NoDup; [exact Hports|].
    apply fmap_sublist, sublist_filter.
  - intros id1 id2 s [_ H1]%lookup_delete_Some [_ H2]%lookup_delete_Some.
    by eapply Hinj.
Qed.

Lemma consistent_perform (c : call) (st : State) :
  consistent st → consistent (perform c st).
Proof.
  destruct c as [server_id|server_id|server_id|ports]; simpl.
  - apply consistent_start.
  - by rewrite get_server_state.
  - apply consistent_stop.
  - by intros [].
Qed.

Lemma consistent_run (calls : list call) (st : State) :
  consistent st → consistent (run calls st).
Proof.
  revert st. induction calls as [|c calls IH]; intros st Hst; [done|].
  simpl. by apply IH, consistent_perform.
Qed.

Lemma run_app (calls1 calls2 : list call) (st : State) :
  run (calls1 ++ calls2) st = run calls2 (run calls1 st).
Proof. unfold run. apply foldl_app. Qed.

Lemma start_server_sessions_other (id server_id : string) (st : State) :
  id ≠ server_id →
  sessions (start_server server_id st).1 !! id = sessions st !! id.
Proof.
  intros Hne. destruct (start_server server_id st) as [st' r] eqn:Hstart.
  apply start_server_outcome in Hstart
    as [(evs & e & -> & _)|(evs & port & actual & _ & _ & _ & -> & _)];
    unfold sessions; simpl.
  - done.
  - by rewrite lookup_insert_ne.
Qed.

Lemma perform_absent (id : string) (c : call) (st : State) :
  c ≠ StartSession id →
  sessions st !! id = None →
  sessions (perform c st) !! id = None.
Proof.
  intros Hc Hid. destruct c as [server_id|server_id|server_id|ports]; simpl.
  - rewrite start_server_sessions_other; [done|]. congruence.
  - by rewrite get_server_state.
  - rewrite stop_server_sessions. by apply lookup_delete_None; right.
  - done.
Qed.

Lemma run_absent (id : string) (calls : list call) (st : State) :
  StartSession id ∉ calls →
  sessions st !! id = None →
  sessions (run calls st) !! id = None.
Proof.
  revert st. induction calls as [|c calls IH]; intros st Hcalls Hid; [done|].
  apply not_elem_of_cons in Hcalls as [Hc Hcalls].
  simpl. apply IH; [done|]. by apply perform_absent.
Qed.

(** The configuration is never written, and the last port stays in the
    range or right below it. *)
Lemma perform_config (c : call) (st : State) :
  _min_port (self (perform c st)) = _min_port (self st) ∧
  _max_port (self (perform c st)) = _max_port (self st).
Proof.
  destruct c as [server_id|server_id|server_id|ports]; simpl.
  - destruct (start_server server_id st) as [st' r] eqn:Hstart.
    by apply start_server_outcome in Hstart
      as [(evs & e & -> & _)|(evs & port & actual & _ & _ & _ & -> & _)].
  - by rewrite get_server_state.
  - unfold stop_server, bind, pop_session.
    by destruct (_ !! server_id).
  - done.
Qed.

Lemma perform_last_port (c : call) (st : State) :
  _min_port (self st) - 1 ≤ _last_port (self st) ≤ _max_port (self st) →
  _min_port (self st) - 1 ≤ _last_port (self (perform c st)) ≤ _max_port (self st).
Proof.
  intros Hlast.
  destruct c as [server_id|server_id|server_id|ports]; simpl.
  - destruct (start_server server_id st) as [st' r] eqn:Hstart.
    apply start_server_outcome in Hstart
      as [(evs & e & -> & _)|(evs & port & actual & Hrange & _ & _ & -> & _)];
      simpl; lia.
  - by rewrite get_server_state.
  - unfold stop_server, bind, pop_session.
    by destruct (_ !! server_id).
  - done.
Qed.

Lemma run_config (calls : list call) (st : State) :
  _min_port (self (run calls st)) = _min_port (self st) ∧
  _max_port (self (run calls st)) = _max_port (self st).
Proof.
  revert st. induction calls as [|c calls IH]; intros st; [done|].
  simpl. destruct (IH (perform c st)) as [-> ->]. apply perform_config.
Qed.

Lemma run_last_port (calls : list call) (st : State) :
  _min_port (self st) - 1 ≤ _last_port (self st) ≤ _max_port (self st) →
  _min_port (self st) - 1 ≤ _last_port (self (run calls st)) ≤ _max_port (self st).
Proof.
  revert st. induction calls as [|c calls IH]; intros st Hlast; [done|].
  simpl. pose proof (perform_config c st) as [Hmin Hmax].
  pose proof (perform_last_port c st Hlast) as Hlast'.
  rewrite <- Hmin, <- Hmax. apply IH. by rewrite Hmin, Hmax.
Qed.

(** * The claims *)

(** The part of the port search that does not depend on the backend.  On a
    well-formed configuration [scan_order] is a rearrangement of the whole
    range [min..max], each port once, that begins at the last port plus one
    (wrapped back into the range) and goes from each port to the next one
    of the range, round.  Every call probes a first part of that order, each
    port once, and when every port of the range is in use it probes them
    all and raises the [RuntimeError] of an exhausted range. *)
Lemma start_server_scan_facts (server_id : string) (st : State) :
  valid_config (self st) →
  let m := self st in
  let order := scan_order m in
  order ≡ₚ seqZ (_min_port m) (_max_port m - _min_port m + 1) ∧
  order !! 0%nat =
    Some ((_last_port m + 1 - _min_port m) `mod` (_max_port m - _min_port m + 1)
          + _min_port m) ∧
  (_min_port m - 1 ≤ _last_port m ≤ _max_port m →
   order !! 0%nat = Some (next_port m (_last_port m))) ∧
  (∀ i p q, order !! i = Some p → order !! S i = Some q → q = next_port m p) ∧
  (∃ n : nat,
     let probed := EvBind <$> take n order in
     trace (start_server server_id st).1 = trace st ++ probed ∨
     (∃ p, order !! n = Some p ∧
           trace (start_server server_id st).1 = trace st ++ probed ++ [EvBind p])) ∧
  ((∀ p, _min_port m ≤ p ≤ _max_port m → port_in_use (host st) p = true) →
   start_server server_id st =
     (add_trace (EvBind <$> order) st,
      inl (RuntimeError (no_ports_message (_min_port m) (_max_port m))))).
Proof.
  intros Hvalid m order. split_and!.
  - by apply scan_order_range.
  - by apply scan_order_head.
  - by apply scan_order_head_next.
  - intros i p q. by apply scan_order_next.
  - destruct (start_server server_id st) as [st' r] eqn:Hstart.
    apply start_server_probes in Hstart
      as [n [(e & -> & _)|(port & actual & Hport & _ & _ & _ & _ & -> & _)]];
      exists n; simpl; [by left|right].
    exists port. split; [done|]. by rewrite app_assoc.
  - by apply start_server_exhausted.
Qed.

(** C1.  The port that [start_server] finds free is not the port its server
    gets: the server is constructed inside the [with] block, while the
    socket of the probe still holds the port.  On a machine with the three
    ports 8000..8002 free, the scan starts at 8000, which can be bound.
    With a backend that serves only on the port it is given, every launch
    is refused, the [OSError] is taken for a port in use, and the call
    raises the error of an exhausted range after probing the three ports.
    With a backend that moves on when its port is held, the call returns a
    server on port 8001 and records 8000 as the last port. *)
Theorem start_server_misses_probed_port :
  scan_order (self (boot strict_backend 8000 8002 ∅)) = [8000; 8001; 8002] ∧
  port_held (host (boot strict_backend 8000 8002 ∅)) 8000 = false ∧
  start_server "a" (boot strict_backend 8000 8002 ∅) =
    (add_trace [EvBind 8000; EvBind 8001; EvBind 8002]
       (boot strict_backend 8000 8002 ∅),
     inl (RuntimeError "No available local ports in range 8000-8002")) ∧
  (start_server "a" (boot moving_backend 8000 8002 ∅)).2 =
    inr {| server_uid := 0; get_port := 8001 |} ∧
  _last_port (self (start_server "a" (boot moving_backend 8000 8002 ∅)).1) = 8000 ∧
  trace (start_server "a" (boot moving_backend 8000 8002 ∅)).1 = [EvBind 8000].
Proof. vm_compute. split_and!; reflexivity. Qed.

(** C10.  A call of [start_server] that raises leaves the manager and the
    machine as they were: no session is added, no server is constructed,
    [_last_port] keeps its value.  A call that returns has stored the
    session and the last port after the bind of that port, its last action
    on the network, and its server is on a port that nothing held. *)
Theorem start_server_failure_atomic (server_id : string) (st st' : State)
    (r : exn + ViserServer) :
  start_server server_id st = (st', r) →
  match r with
  | inl _ => self st' = self st ∧ host st' = host st
  | inr server =>
      port_in_use (host st) (get_port server) = false ∧
      last (trace st') = Some (EvBind (_last_port (self st'))) ∧
      sessions st' = <[server_id := server]> (sessions st) ∧
      running (host st') = running (host st) ++ [server]
  end.
Proof.
  intros [(evs & e & -> & ->)
         |(evs & port & actual & _ & Hfree & _ & -> & ->)]%start_server_outcome.
  - done.
  - simpl. split_and!; [done| |done..]. by rewrite last_snoc.
Qed.

Lemma start_server_failure_atomic_witness :
  start_server "a" (boot moving_backend 8000 8000 {[8000]}) =
    (add_trace [EvBind 8000] (boot moving_backend 8000 8000 {[8000]}),
     inl (RuntimeError "No available local ports in range 8000-8000")) ∧
  self (add_trace [EvBind 8000] (boot moving_backend 8000 8000 {[8000]})) =
    self (boot moving_backend 8000 8000 {[8000]}) ∧
  host (add_trace [EvBind 8000] (boot moving_backend 8000 8000 {[8000]})) =
    host (boot moving_backend 8000 8000 {[8000]}).
Proof.
  assert (start_server "a" (boot moving_backend 8000 8000 {[8000]}) =
    (add_trace [EvBind 8000] (boot moving_backend 8000 8000 {[8000]}),
     inl (RuntimeError "No available local ports in range 8000-8000"))) as Hrun
    by (vm_compute; reflexivity).
  split; [exact Hrun|].
  exact (start_server_failure_atomic "a" _ _ _ Hrun).
Defined.

(** What the operating system guarantees whatever the allocator does: after
    any sequence of calls two different sessions are served by servers on
    different ports, and no two running servers hold the same port. *)
Lemma servers_hold_distinct_ports (library : Backend)
    (min_local_port max_local_port : Z)
    (ports : gset Z) (calls : list call) (id1 id2 : string)
    (server1 server2 : ViserServer) :
  let st := run calls (boot library min_local_port max_local_port ports) in
  id1 ≠ id2 →
  sessions st !! id1 = Some server1 →
  sessions st !! id2 = Some server2 →
  get_port server1 ≠ get_port server2 ∧
  NoDup (get_port <$> running (host st)).
Proof.
  intros st Hne H1 H2.
  destruct (consistent_run calls _
              (consistent_boot library min_local_port max_local_port ports))
    as [Hrun Hports Hinj].
  fold st in Hrun, Hports, Hinj. split; [|done].
  intros Hport. apply Hne, (Hinj id1 id2 server1); [done|].
  rewrite H2. f_equal.
  apply Hrun in H1, H2.
  apply list_elem_of_lookup in H1 as [i Hi], H2 as [j Hj].
  assert (i = j) as ->; [|congruence].
  eapply NoDup_lookup; [exact Hports| |].
  - rewrite list_lookup_fmap, Hi. reflexivity.
  - rewrite list_lookup_fmap, Hj. simpl. by rewrite Hport.
Qed.


(** C8.  [get_server] never changes the state, and for an identifier that
    was never started, or that was stopped and not started again, it raises
    [KeyError], the "session not found" of the manager. *)
Theorem get_server_not_found (library : Backend)
    (min_local_port max_local_port : Z)
    (ports : gset Z) (calls : list call) (server_id : string) :
  never_started_or_stopped server_id calls →
  let st := run calls (boot library min_local_port max_local_port ports) in
  get_server server_id st = (st, inl (KeyError server_id)) ∧
  ∀ id st', (get_server id st').1 = st'.
Proof.
  intros Hcalls st. split; [|intros; apply get_server_state].
  apply get_server_absent. subst st.
  destruct Hcalls as [Hnever|(before & after & -> & Hafter)].
  - apply run_absent; [done|]. unfold sessions. simpl. apply lookup_empty.
  - rewrite run_app. simpl. apply run_absent; [done|].
    rewrite stop_server_sessions. apply lookup_delete_eq.
Qed.

Lemma get_server_not_found_witness :
  never_started_or_stopped "a" [StartSession "a"; StopSession "a"] ∧
  get_server "a" (run [StartSession "a"; StopSession "a"] (boot moving_backend 8000 8002 ∅)) =
    (run [StartSession "a"; StopSession "a"] (boot moving_backend 8000 8002 ∅), inl (KeyError "a")).
Proof.
  assert (never_started_or_stopped "a" [StartSession "a"; StopSession "a"]) as Hcalls.
  { right. exists [StartSession "a"], []. split; [reflexivity|]. apply not_elem_of_nil. }
  split; [exact Hcalls|].
  exact (proj1 (get_server_not_found moving_backend 8000 8002 ∅ _ "a" Hcalls)).
Defined.

(** C7, as the code has it.  [stop_server] on a session that exists removes
    its entry and stops its server, touching nothing else; on an identifier
    with no session it raises [KeyError] and leaves the state as it was. *)
Theorem stop_server_spec (server_id : string) (st : State) :
  match sessions st !! server_id with
  | Some server =>
      ∃ st',
        stop_server server_id st = (st', inr tt) ∧
        sessions st' = delete server_id (sessions st) ∧
        running (host st') = filter (λ s, s ≠ server) (running (host st)) ∧
        (server ∉ running (host st')) ∧
        _last_port (self st') = _last_port (self st) ∧
        foreign (host st') = foreign (host st) ∧
        trace st' = trace st
  | None => stop_server server_id st = (st, inl (KeyError server_id))
  end.
Proof.
  destruct (sessions st !! server_id) as [server|] eqn:Hserver.
  - unfold sessions, stop_server, bind, pop_session in *. rewrite Hserver.
    eexists. split_and!; try reflexivity.
    simpl. rewrite list_elem_of_filter. tauto.
  - by apply stop_server_absent.
Qed.

(** C7, the claim as written fails: after [start_server("a")] and
    [stop_server("a")] there is no session "a", and stopping it once more
    raises. *)
Lemma stop_server_twice_raises :
  sessions (run [StartSession "a"; StopSession "a"] (boot moving_backend 8000 8002 ∅)) !! "a" = None ∧
  stop_server "a" (run [StartSession "a"; StopSession "a"] (boot moving_backend 8000 8002 ∅)) =
    (run [StartSession "a"; StopSession "a"] (boot moving_backend 8000 8002 ∅), inl (KeyError "a")).
Proof. vm_compute. split; reflexivity. Qed.

(** Starting a session that is already active, in general: the call goes
    through whenever a server can be launched, and the server of the earlier
    session stays among the running ones while no identifier leads to it any
    more. *)
Lemma start_server_overwrite (server_id : string) (st st' : State)
    (old new : ViserServer) :
  consistent st →
  sessions st !! server_id = Some old →
  start_server server_id st = (st', inr new) →
  sessions st' !! server_id = Some new ∧
  new ≠ old ∧
  old ∈ running (host st') ∧
  ∀ id, sessions st' !! id ≠ Some old.
Proof.
  intros [Hrun Hports Hinj] Hold Hstart.
  pose proof (Hrun _ _ Hold) as Hold_running.
  apply start_server_outcome in Hstart
    as [(evs & e & _ & [=])|(evs & port & actual & _ & Hfree & _ & -> & [= ->])].
  assert ({| server_uid := launched (host st); get_port := actual |} ≠ old) as Hne.
  { intros Heq. subst old.
    apply port_in_use_running in Hold_running. simpl in *. congruence. }
  unfold sessions in *. simpl. split_and!.
  - by rewrite lookup_insert_eq.
  - done.
  - apply elem_of_app. by left.
  - intros id. rewrite lookup_insert. case_decide as Hid.
    + congruence.
    + intros Hid_old. by apply Hid, (Hinj _ _ old).
Qed.

(** C6.  Starting a session whose identifier is already active (with a
    backend that moves on when its port is held, so that servers can be
    launched at all): the call returns normally, the entry is overwritten,
    and the first server keeps running on its port with no session that
    leads to it. *)
Theorem start_server_twice_leaks :
  let st1 := run [StartSession "a"] (boot moving_backend 8000 8002 ∅) in
  let st2 := run [StartSession "a"; StartSession "a"] (boot moving_backend 8000 8002 ∅) in
  let old := {| server_uid := 0; get_port := 8001 |} in
  let new := {| server_uid := 1; get_port := 8003 |} in
  sessions st1 = {["a" := old]} ∧
  start_server "a" st1 = (st2, inr new) ∧
  sessions st2 = {["a" := new]} ∧
  running (host st2) = [old; new] ∧
  port_in_use (host st2) 8001 = true ∧
  ∀ id, sessions st2 !! id ≠ Some old.
Proof.
  intros st1 st2 old new.
  assert (sessions st2 = {["a" := new]}) as Hs2 by (vm_compute; reflexivity).
  split_and!; [vm_compute; reflexivity..|].
  intros id. rewrite Hs2. intros [_ Heq]%lookup_singleton_Some. discriminate Heq.
Qed.

(** ** The route handlers *)

(** C9.  For an identifier with no session, the HTTP handler answers 404
    without sending anything, and the WebSocket handler accepts the client
    and closes it with code 1008; it opens no connection to a backend. *)
Theorem unknown_session_refused
    (httpx_send : HttpxRequest → string + HttpxResponse)
    (ws_session : string → option string)
    (request : Request) (server_id proxy_path : string) (st : State) :
  sessions st !! server_id = None →
  proxy httpx_send request server_id proxy_path st =
    (st, inr {| content := Str "Server not found"; status_code := 404;
                response_headers := None |}) ∧
  websocket_proxy ws_session server_id st =
    (add_trace [EvWsAccept; EvWsClose 1008 "Not Found"] st, inr tt).
Proof.
  unfold sessions. intros Habsent. split.
  - unfold proxy, bind, gets, ret. by rewrite Habsent.
  - unfold websocket_proxy, bind, gets, log, modify. simpl. rewrite Habsent.
    by rewrite add_trace_app.
Qed.

Lemma unknown_session_refused_witness :
  sessions (boot moving_backend 8000 8002 ∅) !! "nobody" = None ∧
  websocket_proxy (λ _, None) "nobody" (boot moving_backend 8000 8002 ∅) =
    (add_trace [EvWsAccept; EvWsClose 1008 "Not Found"] (boot moving_backend 8000 8002 ∅), inr tt).
Proof.
  assert (sessions (boot moving_backend 8000 8002 ∅) !! "nobody" = None) as Habsent
    by reflexivity.
  split; [exact Habsent|].
  exact (proj2 (unknown_session_refused
                  (λ _, inl "unreachable") (λ _, None)
                  {| method := "GET"; url_query := ""; headers := ∅; body := [] |}
                  "nobody" "" (boot moving_backend 8000 8002 ∅) Habsent)).
Defined.





(** ** Worked examples *)

(** Three ports and a backend that moves on: the servers end up on ports
    that were never probed, one of them outside of the range, and a fourth
    session still finds a port of the range that can be bound. *)
Example four_sessions_on_three_ports :
  let st := run [StartSession "a"; StartSession "b"; StartSession "c";
                 StartSession "d"] (boot moving_backend 8000 8002 ∅) in
  get_port <$> running (host st) = [8001; 8003; 8002; 8004] ∧
  trace st = [EvBind 8000; EvBind 8001; EvBind 8002; EvBind 8000;
              EvBind 8001; EvBind 8002; EvBind 8000].
Proof. vm_compute. split; reflexivity. Qed.

(** The scan goes on after the last port and skips ports held elsewhere. *)
Example scan_wraps_and_skips :
  let st := run [StartSession "a"; StartSession "b"; StopSession "a";
                 Elsewhere {[8002]}; StartSession "c"]
              (boot moving_backend 8000 8002 ∅) in
  sessions st !! "c" = Some {| server_uid := 2; get_port := 8001 |} ∧
  trace st = [EvBind 8000; EvBind 8001; EvBind 8002; EvBind 8000].
Proof. vm_compute. split; reflexivity. Qed.

(** An empty range, [max = min - 1], makes the first modulo raise. *)
Example empty_range_divides_by_zero :
  start_server "a" (boot strict_backend 8000 7999 ∅) =
    (boot strict_backend 8000 7999 ∅, inl ZeroDivisionError).
Proof. vm_compute. reflexivity. Qed.

(** The URL and the headers of a forwarded request. *)
Example proxied_request_example :
  let st := run [StartSession "a"] (boot moving_backend 8000 8002 ∅) in
  let request :=
    {| method := "GET"; url_query := "x=1";
       headers := {["host" := "foo"; "accept" := "*/*"]};
       body := [] |} in
  trace (proxy (λ _, inl "refused") request "a" "index.html" st).1 =
    [EvBind 8000;
     EvHttpSend
       {| req_method := "GET";
          req_url := "http://127.0.0.1:8001/index.html?x=1";
          req_headers := {["accept" := "*/*"; "accept-encoding" := "identity"]};
          req_content := [] |}].
Proof. vm_compute. reflexivity. Qed.

(** A session that is registered: the WebSocket handler connects to the
    port of its server, and closes the client with 1011 when that fails. *)
Example websocket_backend_down :
  let st := run [StartSession "a"] (boot moving_backend 8000 8002 ∅) in
  trace (websocket_proxy (λ _, Some "refused") "a" st).1 =
    [EvBind 8000; EvWsAccept; EvWsConnect "ws://127.0.0.1:8001";
     EvPrint "WebSocket proxy error: refused"; EvWsClose 1011 "refused"].
Proof. vm_compute. reflexivity. Qed.

(** * Further properties of the manager *)

Lemma filter_all {A} (P : A → Prop) `{!∀ x, Decision (P x)} (l : list A) :
  Forall P l → filter P l = l.
Proof.
  induction 1 as [|x l Hx _ IH]; [done|].
  rewrite filter_cons, decide_True by done. by rewrite IH.
Qed.


Lemma free_port_not_running (h : Host) (port : Z) (server : ViserServer) :
  port_in_use h port = false → server ∈ running h → get_port server ≠ port.
Proof.
  intros Hfree Hin <-. apply port_in_use_running in Hin. congruence.
Qed.

(** X1.  What [start_server] registered is what [get_server] gives back:
    after a call that returned a server, looking the same identifier up
    returns that server and changes nothing. *)
Theorem start_then_get (server_id : string) (st st' : State)
    (server : ViserServer) :
  start_server server_id st = (st', inr server) →
  get_server server_id st' = (st', inr server).
Proof.
  intros [(evs & e & _ & [=])
         |(evs & port & actual & _ & _ & _ & -> & [= ->])]%start_server_outcome.
  unfold get_server, bind, gets, ret. simpl. by rewrite lookup_insert_eq.
Qed.

Lemma start_then_get_witness :
  start_server "a" (boot moving_backend 8000 8002 ∅) =
    (run [StartSession "a"] (boot moving_backend 8000 8002 ∅),
     inr {| server_uid := 0; get_port := 8001 |}) ∧
  get_server "a" (run [StartSession "a"] (boot moving_backend 8000 8002 ∅)) =
    (run [StartSession "a"] (boot moving_backend 8000 8002 ∅),
     inr {| server_uid := 0; get_port := 8001 |}).
Proof.
  assert (start_server "a" (boot moving_backend 8000 8002 ∅) =
            (run [StartSession "a"] (boot moving_backend 8000 8002 ∅),
             inr {| server_uid := 0; get_port := 8001 |})) as Hstart
    by (vm_compute; reflexivity).
  split; [exact Hstart|].
  exact (start_then_get "a" _ _ _ Hstart).
Defined.

(** Stopping the session that [start_server] has just stored: the entry is
    deleted and the new server leaves the running ones, the rest stays. *)
Lemma stop_started (server_id : string) (port actual : Z) (st : State) :
  port_in_use (host st) actual = false →
  stop_server server_id (started server_id port actual st) =
    ({| self := {| _min_port := _min_port (self st);
                   _max_port := _max_port (self st);
                   _server_from_session_hash :=
                     delete server_id (_server_from_session_hash (self st));
                   _last_port := port |};
        host := {| foreign := foreign (host st);
                   running := running (host st);
                   launched := S (launched (host st));
                   probes := probes (host st);
                   backend := backend (host st) |};
        trace := trace st ++ [EvBind port] |},
     inr tt).
Proof.
  intros Hfree. unfold stop_server, bind, pop_session. simpl.
  rewrite lookup_insert_eq. unfold ViserServer_stop. simpl.
  rewrite delete_insert_eq.
  rewrite filter_app, filter_cons, decide_False, filter_nil, app_nil_r by tauto.
  rewrite filter_all; [done|].
  apply Forall_forall. intros s Hs ->.
  apply port_in_use_running in Hs. simpl in *. congruence.
Qed.

(** X2.  Starting a session under an identifier that is not in use and
    stopping it again gives back the sessions and the running servers there
    were before; the stop does not raise. *)
Theorem start_then_stop (server_id : string) (st st1 : State)
    (server : ViserServer) :
  sessions st !! server_id = None →
  start_server server_id st = (st1, inr server) →
  ∃ st2,
    stop_server server_id st1 = (st2, inr tt) ∧
    sessions st2 = sessions st ∧
    running (host st2) = running (host st) ∧
    foreign (host st2) = foreign (host st).
Proof.
  intros Hfresh
    [(evs & e & _ & [=])
    |(evs & port & actual & _ & Hfree & _ & -> & [= ->])]%start_server_outcome.
  eexists. split; [by apply (stop_started server_id port actual (add_trace evs st))|].
  unfold sessions in *. simpl. split_and!; [|done..].
  by apply delete_id.
Qed.

Lemma start_then_stop_witness :
  sessions (boot moving_backend 8000 8002 ∅) !! "a" = None ∧
  ∃ st2,
    stop_server "a" (run [StartSession "a"] (boot moving_backend 8000 8002 ∅)) = (st2, inr tt) ∧
    sessions st2 = sessions (boot moving_backend 8000 8002 ∅) ∧
    running (host st2) = running (host (boot moving_backend 8000 8002 ∅)) ∧
    foreign (host st2) = foreign (host (boot moving_backend 8000 8002 ∅)).
Proof.
  assert (sessions (boot moving_backend 8000 8002 ∅) !! "a" = None) as Hfresh by reflexivity.
  assert (start_server "a" (boot moving_backend 8000 8002 ∅) =
            (run [StartSession "a"] (boot moving_backend 8000 8002 ∅),
             inr {| server_uid := 0; get_port := 8001 |})) as Hstart
    by (vm_compute; reflexivity).
  split; [exact Hfresh|].
  exact (start_then_stop "a" _ _ _ Hfresh Hstart).
Defined.



(** X4.  A call that concerns other identifiers, or no identifier at all,
    does not disturb a session: its entry stays and its server keeps
    running. *)
Theorem other_calls_leave_session (c : call) (server_id : string) (st : State)
    (server : ViserServer) :
  consistent st →
  c ≠ StartSession server_id →
  c ≠ StopSession server_id →
  sessions st !! server_id = Some server →
  sessions (perform c st) !! server_id = Some server ∧
  server ∈ running (host (perform c st)).
Proof.
  intros Hcons Hstart Hstop Hserver.
  assert (sessions (perform c st) !! server_id = Some server) as Hkept.
  { destruct c as [id|id|id|ports]; simpl.
    - rewrite start_server_sessions_other; [done|congruence].
    - by rewrite get_server_state.
    - rewrite stop_server_sessions, lookup_delete_ne; [done|congruence].
    - done. }
  split; [done|].
  by apply (sessions_running _ (consistent_perform c st Hcons) server_id).
Qed.

Lemma other_calls_leave_session_witness :
  consistent (run [StartSession "a"; StartSession "b"] (boot moving_backend 8000 8002 ∅)) ∧
  sessions (perform (StopSession "b")
              (run [StartSession "a"; StartSession "b"] (boot moving_backend 8000 8002 ∅))) !! "a" =
    Some {| server_uid := 0; get_port := 8001 |}.
Proof.
  assert (consistent (run [StartSession "a"; StartSession "b"] (boot moving_backend 8000 8002 ∅)))
    as Hcons by apply consistent_run, consistent_boot.
  split; [exact Hcons|].
  apply (other_calls_leave_session (StopSession "b") "a" _ _ Hcons).
  - discriminate.
  - discriminate.
  - vm_compute. reflexivity.
Defined.

(** ** Which ports are handed out *)

(** X5.  Whatever the configuration and the state, when [start_server]
    returns, the port it has recorded as the last port is a port of the
    range [min..max] that could be bound when the call began; the server it
    returns was launched while the probe held that port and is on another
    port. *)
Theorem start_server_port_in_range (server_id : string) (st st' : State)
    (server : ViserServer) :
  start_server server_id st = (st', inr server) →
  _min_port (self st) ≤ _last_port (self st') ≤ _max_port (self st) ∧
  port_held (host st) (_last_port (self st')) = false ∧
  get_port server ≠ _last_port (self st').
Proof.
  intros [n [(e & _ & [=])
            |(port & actual & _ & Hrange & Hfree & _ & Hne & -> & [= ->])]]
    %start_server_probes.
  simpl. split_and!; [lia|lia|done|done].
Qed.

Lemma start_server_port_in_range_witness :
  start_server "a" (boot moving_backend 8000 8002 {[8000]}) =
    (run [StartSession "a"] (boot moving_backend 8000 8002 {[8000]}),
     inr {| server_uid := 0; get_port := 8002 |}) ∧
  8000 ≤ _last_port (self (run [StartSession "a"]
                             (boot moving_backend 8000 8002 {[8000]}))) ≤ 8002.
Proof.
  assert (start_server "a" (boot moving_backend 8000 8002 {[8000]}) =
            (run [StartSession "a"] (boot moving_backend 8000 8002 {[8000]}),
             inr {| server_uid := 0; get_port := 8002 |})) as Hstart
    by (vm_compute; reflexivity).
  split; [exact Hstart|].
  exact (proj1 (start_server_port_in_range "a" _ _ _ Hstart)).
Defined.

(** X6.  A range that holds no port, [max < min]: [start_server] raises
    without probing any port and without changing anything.  It is the
    modulo that raises [ZeroDivisionError] when [max = min - 1], and the
    code after the empty loop that raises [RuntimeError] otherwise. *)
Theorem start_server_empty_range (server_id : string) (st : State) :
  _max_port (self st) < _min_port (self st) →
  start_server server_id st =
    (st,
     inl (if decide (_max_port (self st) = _min_port (self st) - 1)
          then ZeroDivisionError
          else RuntimeError
                 (no_ports_message (_min_port (self st)) (_max_port (self st))))).
Proof.
  intros Hempty. unfold start_server.
  unfold bind at 1. unfold gets at 1.
  unfold bind at 1. unfold gets at 1.
  unfold bind at 1. unfold gets at 1.
  unfold bind at 1. unfold py_mod at 1.
  case_decide as Hsize.
  - rewrite decide_True by lia. reflexivity.
  - rewrite decide_False by lia. unfold ret at 1.
    unfold range. rewrite seqZ_nil by lia. reflexivity.
Qed.

Lemma start_server_empty_range_witness :
  _max_port (self (boot strict_backend 8000 7000 ∅))
    < _min_port (self (boot strict_backend 8000 7000 ∅)) ∧
  start_server "a" (boot strict_backend 8000 7000 ∅) =
    (boot strict_backend 8000 7000 ∅,
     inl (RuntimeError "No available local ports in range 8000-7000")).
Proof.
  assert (_max_port (self (boot strict_backend 8000 7000 ∅))
            < _min_port (self (boot strict_backend 8000 7000 ∅)))
    as Hempty by (simpl; lia).
  split; [exact Hempty|].
  exact (start_server_empty_range "a" (boot strict_backend 8000 7000 ∅) Hempty).
Defined.

(** ** How many sessions there can be *)

(** X7.  After any sequence of calls on a fresh manager there are never
    more sessions than running servers. *)
Theorem sessions_bounded_by_servers (library : Backend)
    (min_local_port max_local_port : Z)
    (ports : gset Z) (calls : list call) :
  let st := run calls (boot library min_local_port max_local_port ports) in
  (size (sessions st) ≤ length (running (host st)))%nat.
Proof.
  intros st.
  destruct (consistent_run calls _
              (consistent_boot library min_local_port max_local_port ports))
    as [Hrun Hports Hinj].
  fold st in Hrun, Hports, Hinj.
  rewrite <- length_map_to_list, <- (length_fmap snd).
  apply submseteq_length, NoDup_submseteq.
  - apply NoDup_fmap_2_strong; [|apply NoDup_map_to_list].
    intros [id1 s1] [id2 s2] H1%elem_of_map_to_list H2%elem_of_map_to_list.
    simpl. intros <-. f_equal. by apply (Hinj id1 id2 s1).
  - intros s ([id s'] & -> & Hs%elem_of_map_to_list)%list_elem_of_fmap.
    by apply (Hrun id).
Qed.

(** ** No server is left behind when identifiers are not started twice *)

Lemma perform_registered (c : call) (st : State) :
  match c with
  | StartSession server_id => sessions st !! server_id = None
  | _ => True
  end →
  (∀ s, s ∈ running (host st) → ∃ id, sessions st !! id = Some s) →
  ∀ s, s ∈ running (host (perform c st)) →
       ∃ id, sessions (perform c st) !! id = Some s.
Proof.
  intros Hfresh Hreg s.
  destruct c as [server_id|server_id|server_id|ports]; simpl.
  - destruct (start_server server_id st) as [st' r] eqn:Hstart.
    apply start_server_outcome in Hstart
      as [(evs & e & -> & _)|(evs & port & actual & _ & _ & _ & -> & _)];
      unfold sessions in *; simpl; [by apply Hreg|].
    intros [Hs| ->%list_elem_of_singleton]%elem_of_app.
    + destruct (Hreg s Hs) as [id Hid]. exists id.
      rewrite lookup_insert_ne; [done|]. intros <-. congruence.
    + exists server_id. by rewrite lookup_insert_eq.
  - rewrite get_server_state. apply Hreg.
  - unfold sessions, stop_server, bind, pop_session in *.
    destruct (_ !! server_id) as [server|] eqn:Hserver; simpl; [|by apply Hreg].
    intros [Hne Hs]%list_elem_of_filter.
    destruct (Hreg s Hs) as [id Hid]. exists id.
    rewrite lookup_delete_ne; [done|]. intros <-. congruence.
  - apply Hreg.
Qed.

Lemma run_registered (calls : list call) (st : State) :
  fresh_starts calls st = true →
  (∀ s, s ∈ running (host st) → ∃ id, sessions st !! id = Some s) →
  ∀ s, s ∈ running (host (run calls st)) →
       ∃ id, sessions (run calls st) !! id = Some s.
Proof.
  revert st. induction calls as [|c calls IH]; intros st Hfresh Hreg; [done|].
  simpl in Hfresh. apply andb_true_iff in Hfresh as [Hc Hcalls].
  simpl. apply IH; [done|]. apply perform_registered; [|done].
  destruct c; [|done..]. by apply bool_decide_eq_true in Hc.
Qed.

(** X8.  When no session is started under an identifier that is in use,
    every running server belongs to a session, so that once all sessions
    are stopped no server is left running. *)
Theorem fresh_starts_leave_no_orphan (library : Backend)
    (min_local_port max_local_port : Z)
    (ports : gset Z) (calls : list call) :
  fresh_starts calls (boot library min_local_port max_local_port ports) = true →
  let st := run calls (boot library min_local_port max_local_port ports) in
  (∀ s, s ∈ running (host st) → ∃ id, sessions st !! id = Some s) ∧
  (sessions st = ∅ → running (host st) = []).
Proof.
  intros Hfresh st.
  assert (∀ s, s ∈ running (host st) → ∃ id, sessions st !! id = Some s) as Hreg.
  { apply run_registered; [done|]. simpl. by intros s ?%elem_of_nil. }
  split; [done|]. intros Hempty.
  destruct (running (host st)) as [|s l] eqn:Hl; [done|].
  destruct (Hreg s) as [id Hid]; [by left|].
  rewrite Hempty, lookup_empty in Hid. done.
Qed.

Lemma fresh_starts_leave_no_orphan_witness :
  fresh_starts [StartSession "a"; StartSession "b"; StopSession "a"; StopSession "b"]
    (boot moving_backend 8000 8002 ∅) = true ∧
  running (host (run [StartSession "a"; StartSession "b"; StopSession "a";
                      StopSession "b"] (boot moving_backend 8000 8002 ∅))) = [].
Proof.
  assert (fresh_starts
            [StartSession "a"; StartSession "b"; StopSession "a"; StopSession "b"]
            (boot moving_backend 8000 8002 ∅) = true) as Hfresh by (vm_compute; reflexivity).
  split; [exact Hfresh|].
  apply (proj2 (fresh_starts_leave_no_orphan moving_backend 8000 8002 ∅ _ Hfresh)).
  vm_compute. reflexivity.
Defined.

(** * Further properties of the route handlers *)

Lemma string_app_assoc (s1 s2 s3 : string) :
  (s1 +:+ s2) +:+ s3 = s1 +:+ s2 +:+ s3.
Proof.
  induction s1 as [|c s1 IH]; [reflexivity|].
  change (String c ((s1 +:+ s2) +:+ s3) = String c (s1 +:+ s2 +:+ s3)).
  by rewrite IH.
Qed.

Lemma string_app_nil_r (s : string) : s +:+ "" = s.
Proof.
  induction s as [|c s IH]; [reflexivity|].
  change (String c (s +:+ "") = String c s). by rewrite IH.
Qed.

(** X11.  The two route handlers only read the manager: whatever the
    request and whatever the backend answers, the manager object and the
    running servers are as before, and the record of interactions is only
    extended. *)
Theorem handlers_read_only
    (httpx_send : HttpxRequest → string + HttpxResponse)
    (ws_session : string → option string)
    (request : Request) (server_id proxy_path : string) (st : State) :
  let st1 := (proxy httpx_send request server_id proxy_path st).1 in
  let st2 := (websocket_proxy ws_session server_id st).1 in
  (self st1 = self st ∧ host st1 = host st ∧ trace st `prefix_of` trace st1) ∧
  (self st2 = self st ∧ host st2 = host st ∧ trace st `prefix_of` trace st2).
Proof.
  split.
  - unfold proxy, bind, gets, client_send, log, modify, raise, ret. simpl.
    destruct (_ !! server_id) as [server|]; simpl; [|done].
    destruct (httpx_send _); simpl; split_and!; try done; by apply prefix_app_r.
  - unfold websocket_proxy, bind, gets, log, modify, raise, ret. simpl.
    destruct (_ !! server_id) as [server|]; simpl.
    + destruct (ws_session _); simpl; split_and!; try done;
        rewrite <- ?app_assoc; by apply prefix_app_r.
    + split_and!; try done. rewrite <- app_assoc. by apply prefix_app_r.
Qed.

(** X12.  Where a forwarded request goes: for a registered session the
    one request that [proxy] sends is addressed to the loopback interface
    at the port of the server of the session, with the path [/] followed by
    the proxied path and, when the query string is not empty, [?] and the
    query string. *)
Theorem proxy_target_url
    (httpx_send : HttpxRequest → string + HttpxResponse)
    (request : Request) (server_id proxy_path : string) (st : State)
    (server : ViserServer) :
  sessions st !! server_id = Some server →
  ∃ req,
    trace (proxy httpx_send request server_id proxy_path st).1 =
      trace st ++ [EvHttpSend req] ∧
    req_url req =
      "http://127.0.0.1:" +:+ pretty (get_port server) +:+ "/" +:+ proxy_path +:+
      (if decide (url_query request = "") then "" else "?" +:+ url_query request).
Proof.
  unfold sessions. intros Hserver.
  unfold proxy, bind, gets, client_send, log, modify, raise, ret. simpl.
  rewrite Hserver. eexists. split.
  - destruct (httpx_send _); reflexivity.
  - cbn [req_url]. unfold truthy.
    assert ((if negb (bool_decide (proxy_path = "")) then "/" +:+ proxy_path else "/")
            = "/" +:+ proxy_path) as ->.
    { case_bool_decide as Hpath; simpl; [by rewrite Hpath|done]. }
    case_bool_decide as Hquery; simpl.
    + rewrite decide_True by done. by rewrite !string_app_nil_r.
    + rewrite decide_False by done. by rewrite !string_app_assoc.
Qed.

Lemma proxy_target_url_witness :
  sessions (run [StartSession "a"] (boot moving_backend 8000 8002 ∅)) !! "a" =
    Some {| server_uid := 0; get_port := 8001 |} ∧
  ∃ req,
    trace (proxy (λ _, inl "refused")
             {| method := "GET"; url_query := "x=1"; headers := ∅; body := [] |}
             "a" "assets/scene.js" (run [StartSession "a"] (boot moving_backend 8000 8002 ∅))).1 =
      trace (run [StartSession "a"] (boot moving_backend 8000 8002 ∅)) ++ [EvHttpSend req] ∧
    req_url req = "http://127.0.0.1:8001/assets/scene.js?x=1".
Proof.
  assert (sessions (run [StartSession "a"] (boot moving_backend 8000 8002 ∅)) !! "a" =
            Some {| server_uid := 0; get_port := 8001 |}) as Hserver
    by (vm_compute; reflexivity).
  split; [exact Hserver|].
  destruct (proxy_target_url (λ _, inl "refused")
              {| method := "GET"; url_query := "x=1"; headers := ∅; body := [] |}
              "a" "assets/scene.js" _ _ Hserver) as (req & Htrace & Hurl).
  exists req. split; [exact Htrace|]. rewrite Hurl. vm_compute. reflexivity.
Defined.

(** * Properties of the application handlers *)

(** X14.  A page that loads and unloads: when the load handler returns, it
    returns the frame for the [host] header of the request and the session
    hash, and the session is registered on a running server; the unload
    handler for the same request then returns normally and leaves the
    sessions and the running servers as they were before the load. *)
Theorem app_load_then_unload (request : GradioRequest) (hash page : string)
    (st st1 : State) :
  session_hash request = Some hash →
  sessions st !! hash = None →
  App.start_server request st = (st1, inr page) →
  (∃ origin,
     request_headers request !! "host" = Some origin ∧
     page = App.iframe_html origin hash) ∧
  (∃ server, sessions st1 !! hash = Some server ∧ server ∈ running (host st1)) ∧
  ∃ st2,
    App.stop request st1 = (st2, inr tt) ∧
    sessions st2 = sessions st ∧
    running (host st2) = running (host st).
Proof.
  intros Hhash Hfresh. unfold App.start_server, App.stop. rewrite Hhash.
  destruct (start_server hash st) as [st' [e|server]] eqn:Hstart; [done|].
  destruct (request_headers request !! "host") as [origin|] eqn:Horigin; [|done].
  intros [= <- <-].
  apply start_server_outcome in Hstart
    as [(evs & e & _ & [=])|(evs & port & actual & _ & Hfree & _ & -> & [= ->])].
  split_and!.
  - by exists origin.
  - eexists. unfold sessions. simpl. rewrite lookup_insert_eq.
    split; [reflexivity|]. apply elem_of_app. right. by apply list_elem_of_singleton.
  - rewrite (stop_started hash port actual (add_trace evs st)) by done.
    eexists. split; [reflexivity|]. unfold sessions in *. simpl.
    split; [by apply delete_id|done].
Qed.

Lemma app_load_then_unload_witness :
  App.start_server
    {| session_hash := Some "k3x"; request_headers := {["host" := "localhost:7860"]} |}
    (App.viser_manager moving_backend ∅) =
    (run [StartSession "k3x"] (App.viser_manager moving_backend ∅),
     inr (App.iframe_html "localhost:7860" "k3x")) ∧
  ∃ st2,
    App.stop
      {| session_hash := Some "k3x"; request_headers := {["host" := "localhost:7860"]} |}
      (run [StartSession "k3x"] (App.viser_manager moving_backend ∅)) = (st2, inr tt) ∧
    sessions st2 = sessions (App.viser_manager moving_backend ∅).
Proof.
  assert (App.start_server
            {| session_hash := Some "k3x";
               request_headers := {["host" := "localhost:7860"]} |}
            (App.viser_manager moving_backend ∅) =
          (run [StartSession "k3x"] (App.viser_manager moving_backend ∅),
           inr (App.iframe_html "localhost:7860" "k3x"))) as Hload
    by (vm_compute; reflexivity).
  split; [exact Hload|].
  destruct (app_load_then_unload
              {| session_hash := Some "k3x";
                 request_headers := {["host" := "localhost:7860"]} |}
              "k3x" _ (App.viser_manager moving_backend ∅) _ eq_refl eq_refl Hload)
    as (_ & _ & st2 & Hstop & Hsessions & _).
  exists st2. split; [exact Hstop|exact Hsessions].
Defined.

(** X15.  A load that the manager refuses: when [ViserProxyManager.start_server]
    raises for a new session (the range is exhausted, say), the load handler
    raises the same exception, and the unload handler of that page raises
    [KeyError] for its session hash. *)
Theorem app_failed_load_then_unload (request : GradioRequest) (hash : string)
    (st st1 : State) (e : exn) :
  session_hash request = Some hash →
  sessions st !! hash = None →
  start_server hash st = (st1, inl e) →
  App.start_server request st = (st1, inl (Raised e)) ∧
  App.stop request st1 = (st1, inl (Raised (KeyError hash))).
Proof.
  intros Hhash Hfresh Hstart. unfold App.start_server, App.stop.
  rewrite Hhash, Hstart. split; [done|].
  apply start_server_outcome in Hstart
    as [(evs & e' & -> & _)|(evs & port & actual & _ & _ & _ & _ & [=])].
  by rewrite stop_server_absent.
Qed.

Lemma app_failed_load_then_unload_witness :
  start_server "k3x" (boot moving_backend 8000 8000 {[8000]}) =
    (add_trace [EvBind 8000] (boot moving_backend 8000 8000 {[8000]}),
     inl (RuntimeError "No available local ports in range 8000-8000")) ∧
  App.stop {| session_hash := Some "k3x"; request_headers := ∅ |}
    (add_trace [EvBind 8000] (boot moving_backend 8000 8000 {[8000]})) =
    (add_trace [EvBind 8000] (boot moving_backend 8000 8000 {[8000]}), inl (Raised (KeyError "k3x"))).
Proof.
  assert (start_server "k3x" (boot moving_backend 8000 8000 {[8000]}) =
            (add_trace [EvBind 8000] (boot moving_backend 8000 8000 {[8000]}),
             inl (RuntimeError "No available local ports in range 8000-8000")))
    as Hstart by (vm_compute; reflexivity).
  split; [exact Hstart|].
  exact (proj2 (app_failed_load_then_unload
                  {| session_hash := Some "k3x"; request_headers := ∅ |}
                  "k3x" (boot moving_backend 8000 8000 {[8000]}) _ _ eq_refl eq_refl Hstart)).
Defined.

(** X16.  The load handler starts the server before it reads the [host]
    header: on a request without that header it raises [KeyError] for
    [host], and the session it has just started stays registered with its
    server running. *)
Theorem app_load_without_host (request : GradioRequest) (hash : string)
    (st st1 : State) (server : ViserServer) :
  session_hash request = Some hash →
  request_headers request !! "host" = None →
  start_server hash st = (st1, inr server) →
  App.start_server request st = (st1, inl (Raised (KeyError "host"))) ∧
  sessions st1 !! hash = Some server ∧
  server ∈ running (host st1).
Proof.
  intros Hhash Horigin Hstart. unfold App.start_server.
  rewrite Hhash, Hstart, Horigin. split; [done|].
  apply start_server_outcome in Hstart
    as [(evs & e & _ & [=])|(evs & port & actual & _ & _ & _ & -> & [= ->])].
  unfold sessions. simpl. rewrite lookup_insert_eq. split; [done|].
  apply elem_of_app. right. by apply list_elem_of_singleton.
Qed.

Lemma app_load_without_host_witness :
  start_server "k3x" (boot moving_backend 8000 8002 ∅) =
    (run [StartSession "k3x"] (boot moving_backend 8000 8002 ∅),
     inr {| server_uid := 0; get_port := 8001 |}) ∧
  App.start_server {| session_hash := Some "k3x"; request_headers := ∅ |}
    (boot moving_backend 8000 8002 ∅) =
    (run [StartSession "k3x"] (boot moving_backend 8000 8002 ∅), inl (Raised (KeyError "host"))).
Proof.
  assert (start_server "k3x" (boot moving_backend 8000 8002 ∅) =
            (run [StartSession "k3x"] (boot moving_backend 8000 8002 ∅),
             inr {| server_uid := 0; get_port := 8001 |})) as Hstart
    by (vm_compute; reflexivity).
  split; [exact Hstart|].
  exact (proj1 (app_load_without_host
                  {| session_hash := Some "k3x"; request_headers := ∅ |}
                  "k3x" (boot moving_backend 8000 8002 ∅) _ _ eq_refl eq_refl Hstart)).
Defined.

(** The page that the load handler returns for a session. *)
Example app_page_example :
  (App.start_server
     {| session_hash := Some "k3x"; request_headers := {["host" := "localhost:7860"]} |}
     (App.viser_manager moving_backend ∅)).2 =
  inr (line_feed +:+
       "            <div style=" +:+ double_quote +:+
       "border: 2px solid #ccc; padding: 10px;" +:+ double_quote +:+ ">" +:+ line_feed +:+
       "                <iframe src=" +:+ double_quote +:+
       "http://localhost:7860/viser/k3x/" +:+ double_quote +:+
       " width=" +:+ double_quote +:+ "100%" +:+ double_quote +:+
       " height=" +:+ double_quote +:+ "500px" +:+ double_quote +:+
       " frameborder=" +:+ double_quote +:+ "0" +:+ double_quote +:+
       "></iframe>" +:+ line_feed +:+
       "            </div>" +:+ line_feed +:+
       "            ").
Proof. vm_compute. reflexivity. Qed.

(** * The allocator state along a sequence of calls *)

(** X17.  On a well-formed configuration, no sequence of calls changes the
    configured range, and [_last_port], which [__init__] sets to [min - 1],
    stays between [min - 1] and [max]: the next scan always starts inside
    the range. *)
Theorem last_port_stays_in_range (library : Backend)
    (min_local_port max_local_port : Z)
    (ports : gset Z) (calls : list call) :
  1 ≤ min_local_port → min_local_port ≤ max_local_port → max_local_port ≤ 65535 →
  let st := run calls (boot library min_local_port max_local_port ports) in
  _min_port (self st) = min_local_port ∧
  _max_port (self st) = max_local_port ∧
  min_local_port - 1 ≤ _last_port (self st) ≤ max_local_port ∧
  scan_order (self st) !! 0%nat = Some (next_port (self st) (_last_port (self st))).
Proof.
  intros Hmin Hrange Hmax st.
  destruct (run_config calls (boot library min_local_port max_local_port ports))
    as [Hmin' Hmax'].
  pose proof (run_last_port calls (boot library min_local_port max_local_port ports))
    as Hlast.
  fold st in Hmin', Hmax', Hlast. simpl in Hmin', Hmax', Hlast.
  assert (min_local_port - 1 ≤ _last_port (self st) ≤ max_local_port) as Hlast'
    by (apply Hlast; lia).
  split_and!; [done|done|lia|lia|].
  apply scan_order_head_next.
  - unfold valid_config. rewrite Hmin', Hmax'. lia.
  - rewrite Hmin', Hmax'. lia.
Qed.

Lemma last_port_stays_in_range_witness :
  _last_port (self (run [StartSession "a"; StartSession "b"; StartSession "c";
                         StopSession "b"] (boot moving_backend 8000 8002 ∅))) = 8000 ∧
  scan_order (self (run [StartSession "a"; StartSession "b"; StartSession "c";
                         StopSession "b"] (boot moving_backend 8000 8002 ∅))) !! 0%nat
    = Some 8001.
Proof.
  assert (1 ≤ 8000) as Hmin by lia.
  assert (8000 ≤ 8002) as Hrange by lia.
  assert (8002 ≤ 65535) as Hmax by lia.
  destruct (last_port_stays_in_range moving_backend 8000 8002 ∅
              [StartSession "a"; StartSession "b"; StartSession "c"; StopSession "b"]
              Hmin Hrange Hmax) as (_ & _ & _ & Hhead).
  split; [vm_compute; reflexivity|].
  rewrite Hhead. vm_compute. reflexivity.
Defined.
